(** * The record-upload-predict screen of the Hypernasality Detector

    A shallow embedding of [Frontend/screens/HomeScreen.js]: the React state of
    the screen, its three asynchronous handlers ([startRecording],
    [stopRecording], [uploadAudio]), the button handler
    [handleRecordButtonPress], the permission request made on mount, and the
    part of the render function that shows the status.

    Modelling decisions, all of them visible in the definitions below:

    - The five [useState] cells are the record [ui_state]; a setter replaces
      one field.  Every setter of the screen is called with a value, never
      with an updater function, so running the setters of a handler in order
      gives the state React commits.
    - A handler closes over the values of the render in which the button was
      drawn.  The reads of [recording] and [isRecording] are therefore taken
      from a snapshot made when the press is delivered, and passed down to
      [startRecording] and [stopRecording] as the source passes them through
      its closures.
    - [expo-av], [axios] and [Alert] are not part of the repository.  What a
      call to the audio library does is an input: each press carries the
      outcome (resolve or reject) of every audio call that the handler may
      make.  The model only records which recordings have been prepared and
      not yet unloaded ([live]), the last audio mode that was applied, the
      alerts raised, and the HTTP requests that are awaiting their response.
      In particular the model does not decide what the library answers when
      [stopAndUnloadAsync] is called again on a recording it has already
      unloaded: both answers are inputs, and each statement below says which
      one it is about.
    - The awaits on the audio library are run to completion within the press
      that makes them; the HTTP request is the await across which other
      events are delivered.  It is kept in [inflight] until an event settles
      it, at which point the rest of [uploadAudio] runs on the state of that
      moment.
    - [console.log] and [console.error] are not modelled.
    - Numbers are IEEE 754 binary64 values (primitive floats);
      [Number.prototype.toFixed] follows ECMA-262, and the rendering of
      numbers of magnitude 10^21 and above, which [toFixed] delegates to
      [Number::toString], is a parameter. *)

From Stdlib Require Import ZArith NArith List String Ascii Bool Lia.
From Stdlib Require Import PrimFloat FloatOps SpecFloat DecimalString DecimalN.
Import ListNotations.

Set Warnings "-inexact-float".

Open Scope string_scope.

(* ================================================================== *)
(** ** JavaScript primitives used by the screen *)

Module JS.

(** [ToBoolean] of a string: only the empty string is falsy. *)
Definition truthy_string (s : string) : bool := negb (String.eqb s "").

(** [ToBoolean] of a number: [+0], [-0] and [NaN] are falsy. *)
Definition truthy_number (x : float) : bool :=
  negb (PrimFloat.is_zero x || PrimFloat.is_nan x).

(** [ToBoolean] of a value that may be [null] or [undefined]. *)
Definition truthy_opt {A : Type} (truthy : A -> bool) (v : option A) : bool :=
  match v with
  | Some a => truthy a
  | None => false
  end.

(** Decimal digits of a non-negative integer ([ToString] of an integral
    Number below 10^21). *)
Definition digits (n : N) : string := NilEmpty.string_of_uint (N.to_uint n).

Fixpoint zeros (k : nat) : string :=
  match k with
  | O => ""
  | S k' => String "0" (zeros k')
  end.

(** The integer [n] for which [n / 10^f - m * 2^e] is as close to zero as
    possible, the larger one when there are two (ECMA-262, toFixed step 11.a). *)
Definition nearest_scaled (m : positive) (e : Z) (f : nat) : Z :=
  let num := (Z.pos m * 10 ^ Z.of_nat f)%Z in
  if (0 <=? e)%Z then (num * 2 ^ e)%Z
  else ((2 * num + 2 ^ (- e)) / 2 ^ (1 - e))%Z.

(** Steps 11.b to 11.d of toFixed: the digits of [n] with [f] of them after
    the point, padded with zeros on the left when there are too few. *)
Definition place_point (n : Z) (f : nat) : string :=
  let m := if (n =? 0)%Z then "0" else digits (Z.to_N n) in
  match f with
  | O => m
  | S _ =>
      let k := String.length m in
      let m := if (k <=? f)%nat then zeros (f + 1 - k) ++ m else m in
      let k := String.length m in
      substring 0 (k - f) m ++ "." ++ substring (k - f) f m
  end.

Section ToFixed.

(** [Number::toString] on the finite numbers of magnitude at least 10^21. *)
Variable Number_toString : float -> string.

(** [Number.prototype.toFixed(f)] for [0 <= f <= 100]. *)
Definition toFixed (x : float) (f : nat) : string :=
  match Prim2SF x with
  | S754_nan => "NaN"
  | S754_infinity s => if s then "-Infinity" else "Infinity"
  | S754_zero _ => place_point 0 f
  | S754_finite s m e =>
      let sign := if s then "-" else "" in
      if PrimFloat.leb 1e21 (PrimFloat.abs x)
      then sign ++ Number_toString (PrimFloat.abs x)
      else sign ++ place_point (nearest_scaled m e f) f
  end.

End ToFixed.

End JS.

(* ================================================================== *)
(** ** Data of the screen and of its collaborators *)

(** [Platform.OS]. *)
Inductive platform := ios | android | web.

(** [status] of [Audio.requestPermissionsAsync()]. *)
Inductive permission_status := granted | denied | undetermined.

(** An [Audio.Recording] object, by identity. *)
Definition handle := nat.

(** One call [Alert.alert(title, message)]. *)
Record alert := { title : string; message : string }.

(** The argument of [Audio.setAudioModeAsync], an object literal. *)
Inductive mode_value :=
| flag (b : bool)
| AndroidAudioOutput_SPEAKER
| AndroidInterruptionMode_DoNotMix.

Definition audio_mode := list (string * mode_value).

(** The file object appended to the form, and the request given to
    [axios.post]. *)
Record file_part := { uri : string; type : string; name : string }.

Record request := {
  url : string;
  formData : list (string * file_part);
  headers : list (string * string)
}.

(** The body of a 2xx response, as the contract of the endpoint gives it:
    [{prediction: string, confidence: number}], each key possibly missing
    (or null). *)
Record body := {
  body_prediction : option string;
  body_confidence : option float
}.

(** The error with which [axios.post] rejects. *)
Inductive axios_error :=
| error_response (status : N) (data_json : string)
    (* error.response is set; data_json is JSON.stringify(error.response.data) *)
| error_request
    (* no error.response, error.request is set *)
| error_setup (error_message : string).
    (* neither is set *)

(** How an HTTP request settles.  [fulfilled None] is a 2xx response whose
    [data] is falsy or is not an object (text that did not parse as JSON, for
    one). *)
Inductive settlement :=
| fulfilled (data : option body)
| rejected (error : axios_error).

(** The [useState] cells of [HomeScreen]. *)
Record ui_state := {
  recording : option handle;
  isRecording : bool;
  prediction : string;
  confidence : string;
  vowelToRecord : string
}.

(** The screen together with what it acts on. *)
Record world := {
  ui : ui_state;
  alerts : list alert;          (* calls to Alert.alert, oldest first *)
  inflight : list request;      (* axios.post calls awaiting settlement *)
  live : list handle;           (* recordings prepared and not yet unloaded *)
  next_handle : handle;         (* identity of the next Recording object *)
  audioMode : option audio_mode (* last mode applied by setAudioModeAsync *)
}.

(** Whether a promise of the audio library resolves or rejects. *)
Inductive outcome := resolves | rejects (error_message : string).

(** What the audio library answers to the calls made while one press is
    handled.  A press calls [stopRecording] at most once and the body of
    [startRecording] at most once. *)
Record audio_env := {
  stopAndUnloadAsync_outcome : outcome;
  setAudioModeAsync_outcome_stop : outcome;   (* the call in stopRecording *)
  getURI_result : option string;
  setAudioModeAsync_outcome_start : outcome;  (* the call in startRecording *)
  createAsync_outcome : outcome
}.

(** What is delivered to the screen after it is mounted. *)
Inductive event :=
| Press (env : audio_env)              (* the record button is pressed *)
| Settle (i : nat) (r : settlement).   (* the i-th request in flight settles *)

(** What [render] shows of the state. *)
Record view := {
  status_text : string;
  confidence_text : option string;
  button_title : string;
  button_color : string;
  vowel_text : string
}.

(* ================================================================== *)
(** ** Handlers as computations on the world *)

(** A computation either returns or throws a message. *)
Inductive completion (A : Type) :=
| Returned (a : A)
| Thrown (error_message : string).

Arguments Returned {A} a.
Arguments Thrown {A} error_message.

Definition M (A : Type) : Type := world -> completion A * world.

Definition ret {A : Type} (a : A) : M A := fun w => (Returned a, w).

Definition throw {A : Type} (msg : string) : M A := fun w => (Thrown msg, w).

Definition bind {A B : Type} (m : M A) (k : A -> M B) : M B :=
  fun w =>
    match m w with
    | (Returned a, w') => k a w'
    | (Thrown msg, w') => (Thrown msg, w')
    end.

Definition try_catch {A : Type} (m : M A) (handler : string -> M A) : M A :=
  fun w =>
    match m w with
    | (Returned a, w') => (Returned a, w')
    | (Thrown msg, w') => handler msg w'
    end.

Declare Scope js_scope.
Delimit Scope js_scope with js.
Notation "x <- m ;; k" := (bind m (fun x => k))
  (at level 61, m at next level, right associativity) : js_scope.
Notation "m ;; k" := (bind m (fun _ => k))
  (at level 61, right associativity) : js_scope.
Open Scope js_scope.

Definition with_ui (f : ui_state -> ui_state) : M unit :=
  fun w =>
    (Returned tt,
     {| ui := f (ui w); alerts := alerts w; inflight := inflight w;
        live := live w; next_handle := next_handle w;
        audioMode := audioMode w |}).

Definition setRecording (v : option handle) : M unit :=
  with_ui (fun s =>
    {| recording := v; isRecording := isRecording s;
       prediction := prediction s; confidence := confidence s;
       vowelToRecord := vowelToRecord s |}).

Definition setIsRecording (v : bool) : M unit :=
  with_ui (fun s =>
    {| recording := recording s; isRecording := v;
       prediction := prediction s; confidence := confidence s;
       vowelToRecord := vowelToRecord s |}).

Definition setPrediction (v : string) : M unit :=
  with_ui (fun s =>
    {| recording := recording s; isRecording := isRecording s;
       prediction := v; confidence := confidence s;
       vowelToRecord := vowelToRecord s |}).

Definition setConfidence (v : string) : M unit :=
  with_ui (fun s =>
    {| recording := recording s; isRecording := isRecording s;
       prediction := prediction s; confidence := v;
       vowelToRecord := vowelToRecord s |}).

Definition Alert_alert (t msg : string) : M unit :=
  fun w =>
    (Returned tt,
     {| ui := ui w; alerts := alerts w ++ [{| title := t; message := msg |}];
        inflight := inflight w; live := live w;
        next_handle := next_handle w; audioMode := audioMode w |}).

(** *** The audio library, driven by the outcomes of the press *)

(** [Audio.setAudioModeAsync(cfg)]: the mode is applied when the call
    resolves. *)
Definition Audio_setAudioModeAsync (o : outcome) (cfg : audio_mode) : M unit :=
  fun w =>
    match o with
    | resolves =>
        (Returned tt,
         {| ui := ui w; alerts := alerts w; inflight := inflight w;
            live := live w; next_handle := next_handle w;
            audioMode := Some cfg |})
    | rejects msg => (Thrown msg, w)
    end.

(** [Audio.Recording.createAsync(options)]: when it resolves, a new Recording
    object has been prepared and is recording. *)
Definition Audio_Recording_createAsync (o : outcome) : M handle :=
  fun w =>
    match o with
    | resolves =>
        (Returned (next_handle w),
         {| ui := ui w; alerts := alerts w; inflight := inflight w;
            live := live w ++ [next_handle w];
            next_handle := S (next_handle w); audioMode := audioMode w |})
    | rejects msg => (Thrown msg, w)
    end.

(** [h.stopAndUnloadAsync()]: when it resolves, [h] is no longer live; a
    call that rejects is taken to leave the recorder as it was. *)
Definition stopAndUnloadAsync (o : outcome) (h : handle) : M unit :=
  fun w =>
    match o with
    | resolves =>
        (Returned tt,
         {| ui := ui w; alerts := alerts w; inflight := inflight w;
            live := List.remove Nat.eq_dec h (live w);
            next_handle := next_handle w; audioMode := audioMode w |})
    | rejects msg => (Thrown msg, w)
    end.

(** Calling a method on [recording]: a TypeError when it is [null]. *)
Definition null_deref_message : string :=
  "Cannot read properties of null".

Definition deref (recording : option handle) : M handle :=
  match recording with
  | Some h => ret h
  | None => throw null_deref_message
  end.

(** *** axios *)

(** [axios.post(url, formData, config)] up to the await: the request is in
    flight. *)
Definition axios_post (req : request) : M unit :=
  fun w =>
    (Returned tt,
     {| ui := ui w; alerts := alerts w; inflight := (inflight w ++ [req])%list;
        live := live w; next_handle := next_handle w;
        audioMode := audioMode w |}).

Fixpoint remove_nth {A : Type} (i : nat) (l : list A) : list A :=
  match l, i with
  | [], _ => []
  | _ :: l', O => l'
  | a :: l', S i' => a :: remove_nth i' l'
  end.

(** The i-th request has settled and is no longer in flight. *)
Definition forget_request (i : nat) (w : world) : world :=
  {| ui := ui w; alerts := alerts w; inflight := remove_nth i (inflight w);
     live := live w; next_handle := next_handle w;
     audioMode := audioMode w |}.

Definition backendUrl : string := "http://localhost:8000/predict/".

Definition dquote : string := String (ascii_of_nat 34) EmptyString.

(* ================================================================== *)
(** ** HomeScreen *)

Section HomeScreen.

(** [Platform.OS] of the device, and [Number::toString] (see [JS.toFixed]). *)
Variable Platform_OS : platform.
Variable Number_toString : float -> string.

(** The state of the first render, and the effect run once on mount: the
    permission is requested and, unless it is granted, one alert is raised.
    The status is not kept anywhere. *)
Definition initial_ui : ui_state :=
  {| recording := None; isRecording := false;
     prediction := "No prediction yet"; confidence := "";
     vowelToRecord := "a" |}.

Definition permission_alert : alert :=
  {| title := "Permission required";
     message := "Please grant microphone access to use this app." |}.

Definition mount (status : permission_status) : world :=
  {| ui := initial_ui;
     alerts := match status with
               | granted => []
               | _ => [permission_alert]
               end;
     inflight := []; live := []; next_handle := 0; audioMode := None |}.

(** [stopRecording], closed over [recording]. *)
Definition stopRecording (env : audio_env) (recording : option handle)
  : M (option string) :=
  setIsRecording false ;;
  h <- deref recording ;;
  stopAndUnloadAsync (stopAndUnloadAsync_outcome env) h ;;
  Audio_setAudioModeAsync (setAudioModeAsync_outcome_stop env)
    [("allowsRecordingIOS", flag false);
     ("playThroughEarpieceAndroid", flag true)] ;;
  let uri := getURI_result env in
  setPrediction "Processing..." ;;
  setConfidence "" ;;
  ret uri.

(** The guard that opens [startRecording]:
    [if (recording) { await stopRecording(); }]. *)
Definition stop_previous (env : audio_env) (recording : option handle)
  : M unit :=
  match recording with
  | Some _ => stopRecording env recording ;; ret tt
  | None => ret tt
  end.

Definition audioModeConfig : audio_mode :=
  List.app
    [("allowsRecordingIOS", flag true);
     ("playsInSilentModeIOS", flag true);
     ("playThroughEarpieceAndroid", flag false);
     ("staysActiveInBackground", flag false)]
    match Platform_OS with
    | android =>
        [("androidAudioOutput", AndroidAudioOutput_SPEAKER);
         ("interruptionModeAndroid", AndroidInterruptionMode_DoNotMix)]
    | _ => []
    end.

(** The [try] block of [startRecording] after the guard. *)
Definition begin_recording (env : audio_env) : M unit :=
  Audio_setAudioModeAsync (setAudioModeAsync_outcome_start env)
    audioModeConfig ;;
  newRecording <- Audio_Recording_createAsync (createAsync_outcome env) ;;
  setRecording (Some newRecording) ;;
  setIsRecording true ;;
  setPrediction "Recording..." ;;
  setConfidence "".

(** [startRecording], closed over [recording]. *)
Definition startRecording (env : audio_env) (recording : option handle)
  : M unit :=
  try_catch
    (stop_previous env recording ;;
     begin_recording env)
    (fun err_message =>
       Alert_alert "Recording Error"
         ("Failed to start recording: " ++ err_message
          ++ ". Check browser microphone permissions.") ;;
       setIsRecording false ;;
       setPrediction "Error").

(** [uploadAudio] up to its await: the status is set, the form is built and
    the request is handed to axios. *)
Definition uploadAudio (audioUri : string) : M unit :=
  setPrediction "Sending to backend..." ;;
  axios_post
    {| url := backendUrl;
       formData := [("audio_file",
                     {| uri := audioUri; type := "audio/m4a";
                        name := "recording.m4a" |})];
       headers := [("Content-Type", "multipart/form-data")] |}.

(** The template [`${(confidence * 100).toFixed(2)}%`]. *)
Definition format_confidence (c : float) : string :=
  JS.toFixed Number_toString (PrimFloat.mul c 100) 2 ++ "%".

(** The [else] branch of [uploadAudio] on a fulfilled request. *)
Definition prediction_not_found : M unit :=
  setPrediction "Prediction not found in response." ;;
  setConfidence "" ;;
  Alert_alert "Error" "Prediction not found in backend response.".

(** [uploadAudio] from its await on: the rest of the [try] block when the
    request is fulfilled, the [catch] block when it is rejected. *)
Definition uploadAudio_settled (r : settlement) : M unit :=
  match r with
  | fulfilled (Some {| body_prediction := Some label;
                       body_confidence := c |}) =>
      if JS.truthy_string label then
        setPrediction label ;;
        setConfidence
          (match c with
           | Some x => if JS.truthy_number x then format_confidence x else ""
           | None => ""
           end) ;;
        Alert_alert "Prediction Received" ("Prediction: " ++ label)
      else prediction_not_found
  | fulfilled _ => prediction_not_found
  | rejected error =>
      setPrediction "Error sending to backend." ;;
      setConfidence "" ;;
      match error with
      | error_response status data_json =>
          Alert_alert "Backend Error"
            ("Server responded with status " ++ JS.digits status ++ ": "
             ++ data_json)
      | error_request =>
          Alert_alert "Network Error"
            ("No response from backend. Is it running at " ++ backendUrl
             ++ "?")
      | error_setup msg =>
          Alert_alert "Error" ("Could not send request: " ++ msg)
      end
  end.

(** [handleRecordButtonPress], with [isRecording] and [recording] read from
    the render in which the button was drawn. *)
Definition handleRecordButtonPress (env : audio_env) : M unit :=
  fun w =>
    let rendered := ui w in
    (if isRecording rendered then
       audioUri <- stopRecording env (recording rendered) ;;
       match audioUri with
       | Some u => if JS.truthy_string u then uploadAudio u else ret tt
       | None => ret tt
       end
     else
       startRecording env (recording rendered)) w.

(** One event delivered to the screen.  A completion that throws out of the
    handler (a rejected promise nobody awaits) leaves the world as the
    handler left it. *)
Definition step (w : world) (e : event) : world :=
  match e with
  | Press env => snd (handleRecordButtonPress env w)
  | Settle i r =>
      match nth_error (inflight w) i with
      | Some _ => snd (uploadAudio_settled r (forget_request i w))
      | None => w
      end
  end.

Definition run (w : world) (events : list event) : world :=
  fold_left step events w.

(** The status block and the button of the rendered screen. *)
Definition render (s : ui_state) : view :=
  {| status_text := prediction s;
     confidence_text :=
       if JS.truthy_string (confidence s)
       then Some ("Confidence: " ++ confidence s)
       else None;
     button_title :=
       if isRecording s then "Stop Recording" else "Start Recording";
     button_color := if isRecording s then "red" else "green";
     vowel_text :=
       "Vowel to record: " ++ dquote ++ vowelToRecord s ++ dquote |}.

(** *** Phases of the workflow, read off the world *)

(** Recording: the flag the button is drawn from. *)
Definition is_recording (w : world) : bool := isRecording (ui w).

(** Uploading: some request is awaiting its response. *)
Definition uploads_in_flight (w : world) : nat := List.length (inflight w).

(** Idle: not recording. *)
Definition idle (w : world) : Prop := isRecording (ui w) = false.

(** At most one recording is live, and it is the one the screen holds;
    handles in use are below the next one to be given out. *)
Definition one_session (w : world) : Prop :=
  (live w = [] \/ exists h, live w = [h] /\ recording (ui w) = Some h)
  /\ (forall h, In h (live w) -> h < next_handle w).

(** *** Environments and events used in examples *)

(** Every audio call resolves; [getURI] returns the given value. *)
Definition audio_ok (u : option string) : audio_env :=
  {| stopAndUnloadAsync_outcome := resolves;
     setAudioModeAsync_outcome_stop := resolves;
     getURI_result := u;
     setAudioModeAsync_outcome_start := resolves;
     createAsync_outcome := resolves |}.


(** The library refuses to unload a recording that is already unloaded. *)
Definition audio_already_unloaded : audio_env :=
  {| stopAndUnloadAsync_outcome :=
       rejects "Cannot unload a Recording that has already been unloaded.";
     setAudioModeAsync_outcome_stop := resolves;
     getURI_result := Some "file:///recording-1.m4a";
     setAudioModeAsync_outcome_start := resolves;
     createAsync_outcome := resolves |}.

Definition hypernasal_087 : settlement :=
  fulfilled (Some {| body_prediction := Some "hypernasal";
                     body_confidence := Some 0.87%float |}).

End HomeScreen.


(** [Number::toString] is not reached in the examples, whose numbers stay
    below 10^21. *)
Definition Number_toString_unreached : float -> string := fun _ => "".


(** The test of [uploadAudio] on a fulfilled request,
    [response.data && response.data.prediction], fails. *)
Definition no_label (data : option body) : bool :=
  match data with
  | Some b => negb (JS.truthy_opt JS.truthy_string (body_prediction b))
  | None => true
  end.

(** Two presses: a recording is started, then stopped and sent. *)
Definition record_and_send (u : string) : list event :=
  [Press (audio_ok None); Press (audio_ok (Some u))].

Fixpoint record_and_send_times (n : nat) (u : string) : list event :=
  match n with
  | O => []
  | S n' => record_and_send u ++ record_and_send_times n' u
  end.


(** The request that [uploadAudio] hands to axios for a recording at
    [audioUri]. *)
Definition upload_request (audioUri : string) : request :=
  {| url := backendUrl;
     formData := [("audio_file",
                   {| uri := audioUri; type := "audio/m4a";
                      name := "recording.m4a" |})];
     headers := [("Content-Type", "multipart/form-data")] |}.

(** A request as [uploadAudio] builds them, for a URI that passed the test
    [if (audioUri)]. *)
Definition well_formed_request (req : request) : Prop :=
  exists u, JS.truthy_string u = true /\ req = upload_request u.

(** The mode that [stopRecording] applies. *)
Definition playback_mode : audio_mode :=
  [("allowsRecordingIOS", flag false);
   ("playThroughEarpieceAndroid", flag true)].


(** The message of the first audio call that rejects in [startRecording]
    when no recording is held: [setAudioModeAsync], then [createAsync]. *)
Definition first_start_failure (env : audio_env) : option string :=
  match setAudioModeAsync_outcome_start env with
  | rejects msg => Some msg
  | resolves =>
      match createAsync_outcome env with
      | rejects msg => Some msg
      | resolves => None
      end
  end.

(** The message with which [stopRecording] rejects on a held recording:
    that of [stopAndUnloadAsync], then that of [setAudioModeAsync]. *)
Definition stop_failure (env : audio_env) : option string :=
  match stopAndUnloadAsync_outcome env with
  | rejects msg => Some msg
  | resolves =>
      match setAudioModeAsync_outcome_stop env with
      | rejects msg => Some msg
      | resolves => None
      end
  end.

(** The message of the first audio call that rejects in [startRecording],
    the calls of the guard first when a recording is held. *)
Definition start_rejection (env : audio_env) (recording : option handle)
  : option string :=
  match recording, stop_failure env with
  | Some _, Some msg => Some msg
  | _, _ => first_start_failure env
  end.

(** The alert of the [catch] block of [startRecording]. *)
Definition recording_error_alert (err_message : string) : alert :=
  {| title := "Recording Error";
     message := "Failed to start recording: " ++ err_message
                ++ ". Check browser microphone permissions." |}.

(** The library rejects the unloading. *)
Definition audio_stop_fails : audio_env :=
  {| stopAndUnloadAsync_outcome := rejects "Recorder does not exist.";
     setAudioModeAsync_outcome_stop := resolves;
     getURI_result := Some "file:///recording-1.m4a";
     setAudioModeAsync_outcome_start := resolves;
     createAsync_outcome := resolves |}.

(** The number is neither NaN nor an infinity. *)
Definition finite_number (x : float) : bool :=
  match Prim2SF x with
  | S754_zero _ | S754_finite _ _ _ => true
  | _ => false
  end.

(** The digits that [toFixed] places the point in: those of [n], padded
    with zeros on the left up to [f + 1] characters. *)
Definition padded_digits (n : Z) (f : nat) : string :=
  let m := if (n =? 0)%Z then "0" else JS.digits (Z.to_N n) in
  if (String.length m <=? f)%nat
  then JS.zeros (f + 1 - String.length m) ++ m
  else m.

(** The sign that [toFixed] prints for a finite number. *)
Definition sign_of (x : float) : string :=
  match Prim2SF x with
  | S754_finite true _ _ => "-"
  | _ => ""
  end.

(* ================================================================== *)
(** ** Properties *)

Section Properties.

Variable os : platform.
Variable Number_toString : float -> string.

Local Abbreviation step' := (step os Number_toString).
Local Abbreviation run' := (run os Number_toString).
Local Abbreviation settled' := (uploadAudio_settled Number_toString).

(** Unfolds a handler down to the record operations, and the projections of
    the records it builds. *)
Ltac unfold_handlers :=
  cbv [step handleRecordButtonPress startRecording stop_previous
       begin_recording stopRecording uploadAudio uploadAudio_settled
       prediction_not_found
       deref bind ret throw try_catch with_ui setRecording setIsRecording
       setPrediction setConfidence Alert_alert Audio_setAudioModeAsync
       Audio_Recording_createAsync stopAndUnloadAsync axios_post
       forget_request
       ui alerts inflight live next_handle audioMode
       recording isRecording prediction confidence vowelToRecord
       stopAndUnloadAsync_outcome setAudioModeAsync_outcome_stop
       getURI_result setAudioModeAsync_outcome_start createAsync_outcome
       fst snd].

(** Runs the handler of a press, splitting on the outcome of an audio call
    when the handler comes to it. *)
Ltac split_outcomes o_stop o_mode_stop u o_mode_start o_create :=
  repeat match goal with
    | |- context [o_stop] => destruct o_stop; unfold_handlers
    | |- context [o_mode_stop] => destruct o_mode_stop; unfold_handlers
    | |- context [o_mode_start] => destruct o_mode_start; unfold_handlers
    | |- context [o_create] => destruct o_create; unfold_handlers
    end;
  try match goal with
    | |- context [match u with Some _ => _ | None => _ end] =>
        destruct u as [u|]; unfold_handlers
    end.

Ltac case_outcomes env :=
  destruct env as [o_stop o_mode_stop u o_mode_start o_create];
  unfold_handlers;
  split_outcomes o_stop o_mode_stop u o_mode_start o_create;
  try (destruct (JS.truthy_string u); unfold_handlers).

(** Splits a settlement on its shape and runs the rest of [uploadAudio]. *)
Ltac case_settlement r :=
  destruct r as [[[[l|] c]|]|[s j| |m]]; unfold_handlers;
  try (destruct (JS.truthy_string l); unfold_handlers).

Lemma run_app (w : world) (l1 l2 : list event) :
  run' w (l1 ++ l2) = run' (run' w l1) l2.
Proof. unfold run. apply fold_left_app. Qed.

Lemma run_snoc (w : world) (l : list event) (e : event) :
  run' w (l ++ [e]) = step' (run' w l) e.
Proof. rewrite run_app. reflexivity. Qed.

Lemma remove_only (h : handle) : List.remove Nat.eq_dec h [h] = [].
Proof. cbn. destruct (Nat.eq_dec h h); [reflexivity | contradiction]. Qed.

(** *** One live recording *)


Lemma one_session_press (w : world) (env : audio_env) :
  one_session w -> one_session (step' w (Press env)).
Proof.
  destruct w as [[rec isRec pred conf vowel] al inf lv nh am].
  intros [Hlive Hfresh]. cbn in Hlive, Hfresh.
  assert (Hrm : forall h, rec = Some h ->
                          List.remove Nat.eq_dec h lv = []).
  { intros h ->. destruct Hlive as [-> | (h' & -> & [= ->])].
    - reflexivity.
    - apply remove_only. }
  assert (Hnone : rec = None -> lv = []).
  { intros ->. destruct Hlive as [-> | (h' & _ & [=])]. reflexivity. }
  unfold one_session.
  destruct isRec, rec as [h|]; case_outcomes env;
    try rewrite (Hrm _ eq_refl); try rewrite (Hnone eq_refl); cbn;
    first
      [ split; [assumption | assumption]
      | split; [left; reflexivity | intros k []]
      | split; [left; reflexivity | assumption]
      | split; [right; eexists; split; reflexivity
               | intros k [<- | []]; lia] ].
Qed.

Lemma one_session_settle (w : world) (i : nat) (r : settlement) :
  one_session w -> one_session (step' w (Settle i r)).
Proof.
  destruct w as [[rec isRec pred conf vowel] al inf lv nh am].
  intros H. unfold step. cbn [inflight].
  destruct (nth_error inf i); [| exact H].
  destruct r as [[[[l|] c]|]|[s j| |m]]; unfold_handlers; cbn;
    try destruct (JS.truthy_string l); try exact H.
Qed.

Lemma one_session_step (w : world) (e : event) :
  one_session w -> one_session (step' w e).
Proof.
  destruct e; [apply one_session_press | apply one_session_settle].
Qed.

Lemma one_session_run (events : list event) (w : world) :
  one_session w -> one_session (run' w events).
Proof.
  revert w. induction events as [|e events IH]; intros w H; cbn.
  - exact H.
  - apply IH, one_session_step, H.
Qed.



(** *** Presses while a request is in flight *)




(** Recording and sending once more adds a request to those in flight and
    leaves the screen ready for the next round. *)
Lemma record_and_send_adds_upload (w : world) (u : string) :
  JS.truthy_string u = true ->
  isRecording (ui w) = false ->
  one_session w ->
  let w' := run' w (record_and_send u) in
  isRecording (ui w') = false
  /\ uploads_in_flight w' = S (uploads_in_flight w).
Proof.
  destruct w as [[rec isRec pred conf vowel] al inf lv nh am].
  intros Hu Hrec [Hlive _]. cbn in Hrec, Hlive. subst isRec.
  unfold record_and_send, run, audio_ok, uploads_in_flight.
  destruct rec as [h|]; cbn [fold_left]; unfold_handlers; cbn;
    rewrite Hu; cbn; rewrite length_app; cbn; split;
    first [reflexivity | lia].
Qed.

(** Where the library resolves every call, also the unloading of a recording
    it has unloaded before, nothing bounds the requests in flight. *)
Lemma uploads_unbounded (n : nat) (u : string) :
  JS.truthy_string u = true ->
  forall w, isRecording (ui w) = false -> one_session w ->
    isRecording (ui (run' w (record_and_send_times n u))) = false
    /\ uploads_in_flight (run' w (record_and_send_times n u))
       = n + uploads_in_flight w.
Proof.
  intros Hu. induction n as [|n IH]; intros w Hrec Hinv.
  - split; [exact Hrec | reflexivity].
  - cbn [record_and_send_times]. rewrite run_app.
    destruct (record_and_send_adds_upload w u Hu Hrec Hinv) as [Hrec' Hup].
    destruct (IH (run' w (record_and_send u)) Hrec'
                 (one_session_run _ _ Hinv)) as [Hrec'' Hup'].
    split; [exact Hrec'' | rewrite Hup', Hup; lia].
Qed.



(** *** Permission *)






(** *** What a settlement leaves alone *)

Lemma settle_frame (w : world) (i : nat) (r : settlement) :
  let w' := step' w (Settle i r) in
  recording (ui w') = recording (ui w)
  /\ isRecording (ui w') = isRecording (ui w)
  /\ vowelToRecord (ui w') = vowelToRecord (ui w)
  /\ live w' = live w
  /\ next_handle w' = next_handle w
  /\ audioMode w' = audioMode w.
Proof.
  destruct w as [[rec isRec pred conf vowel] al inf lv nh am].
  unfold step. cbn [inflight]. destruct (nth_error inf i).
  - case_settlement r; repeat split.
  - repeat split.
Qed.

(** *** Recording again after a cycle *)

(** [stopRecording] never clears [recording], so once a recording has been
    made the guard of [startRecording] calls [stopRecording] on it again.
    When the library rejects that call, the press ends in the [catch]. *)
Lemma restart_rejected (w : world) (env : audio_env) (h : handle)
      (msg : string) :
  stopAndUnloadAsync_outcome env = rejects msg ->
  isRecording (ui w) = false ->
  recording (ui w) = Some h ->
  let w' := step' w (Press env) in
  isRecording (ui w') = false /\ recording (ui w') = Some h
  /\ prediction (ui w') = "Error"
  /\ live w' = live w /\ next_handle w' = next_handle w.
Proof.
  destruct w as [[rec isRec pred conf vowel] al inf lv nh am].
  destruct env as [o_stop o_mode_stop u o_mode_start o_create].
  cbn. intros -> -> ->. unfold_handlers. cbn. repeat split.
Qed.

(** When every audio call of the press resolves, the second call included,
    the press starts a new recording. *)
Lemma restart_when_unload_resolves (w : world) (u : option string)
      (h : handle) :
  isRecording (ui w) = false ->
  recording (ui w) = Some h ->
  let w' := step' w (Press (audio_ok u)) in
  isRecording (ui w') = true
  /\ recording (ui w') = Some (next_handle w)
  /\ prediction (ui w') = "Recording...".
Proof.
  destruct w as [[rec isRec pred conf vowel] al inf lv nh am].
  cbn. intros -> ->. unfold audio_ok. unfold_handlers. cbn. repeat split.
Qed.

Lemma first_cycle (r : settlement) :
  let w := run' (mount granted)
             (record_and_send "file:///recording-1.m4a" ++ [Settle 0 r]) in
  isRecording (ui w) = false /\ recording (ui w) = Some 0
  /\ live w = [] /\ next_handle w = 1 /\ inflight w = [].
Proof.
  cbn zeta. rewrite run_snoc.
  destruct (settle_frame
              (run' (mount granted)
                 (record_and_send "file:///recording-1.m4a")) 0 r)
    as (-> & -> & _ & -> & -> & _).
  refine (conj eq_refl (conj eq_refl (conj eq_refl (conj eq_refl _)))).
  case_settlement r; reflexivity.
Qed.

Lemma restart_rejected_repeatedly (n : nat) :
  forall w h,
    isRecording (ui w) = false -> recording (ui w) = Some h ->
    let w' := run' w (repeat (Press audio_already_unloaded) (S n)) in
    isRecording (ui w') = false /\ recording (ui w') = Some h
    /\ prediction (ui w') = "Error"
    /\ live w' = live w /\ next_handle w' = next_handle w.
Proof.
  induction n as [|n IH]; intros w h Hrec Hh.
  - exact (restart_rejected w audio_already_unloaded h _ eq_refl Hrec Hh).
  - destruct (restart_rejected w audio_already_unloaded h _ eq_refl Hrec Hh)
      as (Hrec1 & Hh1 & _ & Hlive1 & Hnext1).
    destruct (IH _ h Hrec1 Hh1) as (Hrec2 & Hh2 & Hp2 & Hlive2 & Hnext2).
    exact (conj Hrec2 (conj Hh2 (conj Hp2
             (conj (eq_trans Hlive2 Hlive1) (eq_trans Hnext2 Hnext1))))).
Qed.

(** C3. The code at the failing input: one full cycle (start, stop and
    send, then any settlement of the request, success or failure), followed
    by presses on which the audio library rejects unloading the recording of
    that cycle a second time.  The machine is idle after the cycle and still
    holds that recording; every one of the later presses ends idle with
    status Error, and no new recording is ever prepared. *)
Theorem C3_restart_blocked_by_retained_recording :
  forall (r : settlement) (n : nat),
    let w := run' (mount granted)
               (record_and_send "file:///recording-1.m4a" ++ [Settle 0 r]) in
    let w' := run' w (repeat (Press audio_already_unloaded) (S n)) in
    (idle w /\ recording (ui w) = Some 0 /\ live w = [])
    /\ (idle w' /\ prediction (ui w') = "Error"
        /\ live w' = [] /\ next_handle w' = next_handle w).
Proof.
  intros r n w w'.
  destruct (first_cycle r) as (Hrec & Hh & Hlive & _ & _).
  destruct (restart_rejected_repeatedly n _ 0 Hrec Hh)
    as (Hrec' & _ & Hp' & Hlive' & Hnext').
  split.
  - exact (conj Hrec (conj Hh Hlive)).
  - exact (conj Hrec' (conj Hp' (conj (eq_trans Hlive' Hlive) Hnext'))).
Qed.

(** *** What a fulfilled request shows *)

(** A body with a non-empty label takes the first branch of [uploadAudio]. *)
Lemma settled_with_label (w : world) (label : string)
      (c : option float) :
  JS.truthy_string label = true ->
  snd (settled' (fulfilled (Some {| body_prediction := Some label;
                                    body_confidence := c |})) w)
  = snd ((setPrediction label ;;
          setConfidence
            (match c with
             | Some x =>
                 if JS.truthy_number x
                 then format_confidence Number_toString x
                 else ""
             | None => ""
             end) ;;
          Alert_alert "Prediction Received" ("Prediction: " ++ label)) w).
Proof.
  intros Hl. unfold uploadAudio_settled. rewrite Hl. reflexivity.
Qed.

Lemma truthy_string_nonempty (s : string) :
  s <> "" -> JS.truthy_string s = true.
Proof.
  intros Hs. unfold JS.truthy_string.
  destruct (String.eqb_spec s ""); [contradiction | reflexivity].
Qed.

(** C4. When the request is fulfilled with the body
    {prediction: hypernasal, confidence: 0.87}, the status shown is
    hypernasal and the confidence shown is 87.00%, whatever the state of the
    screen at that moment; so it is at the end of a first cycle. *)
Theorem C4_hypernasal_087_is_displayed :
  forall (w : world),
    let w' := snd (settled' hypernasal_087 w) in
    (prediction (ui w') = "hypernasal"
     /\ confidence (ui w') = "87.00%"
     /\ status_text (render (ui w')) = "hypernasal"
     /\ confidence_text (render (ui w')) = Some "Confidence: 87.00%")
    /\ render (ui (run' (mount granted)
                     (record_and_send "file:///recording-1.m4a"
                      ++ [Settle 0 hypernasal_087])))
       = {| status_text := "hypernasal";
            confidence_text := Some "Confidence: 87.00%";
            button_title := "Start Recording";
            button_color := "green";
            vowel_text := "Vowel to record: " ++ dquote ++ "a" ++ dquote |}.
Proof.
  intros w w'. split.
  - destruct w as [[rec isRec pred conf vowel] al inf lv nh am].
    subst w'. vm_compute. repeat split.
  - vm_compute. reflexivity.
Qed.

(** C5. When the request is fulfilled with a body that holds a label (a
    non-empty string) and no confidence, the status shown is the label, no
    confidence line is shown, and the alert raised is the one of a received
    prediction, not an error. *)
Theorem C5_label_without_confidence_is_success :
  forall (w : world) (label : string),
    label <> "" ->
    let w' := snd (settled' (fulfilled
                     (Some {| body_prediction := Some label;
                              body_confidence := None |})) w) in
    prediction (ui w') = label
    /\ confidence (ui w') = ""
    /\ status_text (render (ui w')) = label
    /\ confidence_text (render (ui w')) = None
    /\ alerts w' = (alerts w ++ [{| title := "Prediction Received";
                                    message := "Prediction: " ++ label |}])%list.
Proof.
  intros w label Hl w'. subst w'.
  rewrite (settled_with_label w label None (truthy_string_nonempty _ Hl)).
  destruct w as [[rec isRec pred conf vowel] al inf lv nh am].
  unfold_handlers. cbn. repeat split.
Qed.

(** C6, amended. When the request is fulfilled with a body whose confidence
    is absent, the confidence string is set to the empty string, whatever the
    body holds as a label, and no confidence line is shown. *)
Theorem C6_absent_confidence_defaults_to_empty :
  forall (w : world) (label : option string),
    let w' := snd (settled' (fulfilled
                     (Some {| body_prediction := label;
                              body_confidence := None |})) w) in
    confidence (ui w') = ""
    /\ confidence_text (render (ui w')) = None.
Proof.
  intros w label w'. subst w'.
  destruct w as [[rec isRec pred conf vowel] al inf lv nh am].
  destruct label as [l|]; unfold_handlers; cbn;
    try (destruct (JS.truthy_string l); cbn); split; reflexivity.
Qed.

(** C10. When the request is fulfilled with a body that holds a label and a
    confidence equal to zero, the screen ends exactly as it does when the
    confidence is absent: the label is the status, no confidence line is
    shown, and the alert is the one of a received prediction. *)
Theorem C10_zero_confidence_shows_no_confidence :
  forall (w : world) (label : string) (c : float),
    label <> "" ->
    PrimFloat.is_zero c = true ->
    let w' := snd (settled' (fulfilled
                     (Some {| body_prediction := Some label;
                              body_confidence := Some c |})) w) in
    w' = snd (settled' (fulfilled
                (Some {| body_prediction := Some label;
                         body_confidence := None |})) w)
    /\ prediction (ui w') = label
    /\ confidence (ui w') = ""
    /\ confidence_text (render (ui w')) = None
    /\ alerts w' = (alerts w ++ [{| title := "Prediction Received";
                                    message := "Prediction: " ++ label |}])%list.
Proof.
  intros w label c Hl Hc w'. subst w'.
  rewrite !(settled_with_label w label _ (truthy_string_nonempty _ Hl)).
  unfold JS.truthy_number. rewrite Hc. cbn [orb negb].
  destruct w as [[rec isRec pred conf vowel] al inf lv nh am].
  unfold_handlers. cbn. repeat split.
Qed.

(** *** What a failed upload shows *)

(** The status code can be read back from its digits. *)
Lemma digits_inj (s1 s2 : N) : JS.digits s1 = JS.digits s2 -> s1 = s2.
Proof.
  unfold JS.digits. intros H.
  apply (f_equal NilEmpty.uint_of_string) in H.
  rewrite !NilEmpty.usu in H. injection H as H.
  apply (f_equal N.of_uint) in H.
  rewrite !DecimalN.Unsigned.of_to in H. exact H.
Qed.

(** C7. A request that fails shows one of three things.  With no response
    from the server the alert is titled Network Error; with a response
    outside 2xx it is titled Backend Error and its message carries the
    status code, from whose digits the code can be read back; with a 2xx
    response that holds no usable label it is titled Error and the status
    line reads that the prediction was not found.  The three alerts are
    pairwise different.  (The status line alone is the same for the first
    two.) *)
Theorem C7_failure_categories_are_distinguishable :
  forall (w : world) (status : N) (data_json : string)
         (data : option body),
    no_label data = true ->
    let network := snd (settled' (rejected error_request) w) in
    let server :=
      snd (settled' (rejected (error_response status data_json)) w) in
    let malformed := snd (settled' (fulfilled data) w) in
    (exists a_network a_server a_malformed,
       alerts network = (alerts w ++ [a_network])%list
       /\ alerts server = (alerts w ++ [a_server])%list
       /\ alerts malformed = (alerts w ++ [a_malformed])%list
       /\ title a_network = "Network Error"
       /\ title a_server = "Backend Error"
       /\ message a_server
          = "Server responded with status " ++ JS.digits status ++ ": "
            ++ data_json
       /\ title a_malformed = "Error"
       /\ a_network <> a_server
       /\ a_server <> a_malformed
       /\ a_network <> a_malformed)
    /\ prediction (ui network) = "Error sending to backend."
    /\ prediction (ui server) = "Error sending to backend."
    /\ prediction (ui malformed) = "Prediction not found in response."
    /\ (forall status', JS.digits status' = JS.digits status ->
                        status' = status).
Proof.
  intros w status data_json data Hdata network server malformed.
  subst network server malformed.
  destruct w as [[rec isRec pred conf vowel] al inf lv nh am].
  assert (Hmal :
    snd (settled' (fulfilled data)
           {| ui := {| recording := rec; isRecording := isRec;
                       prediction := pred; confidence := conf;
                       vowelToRecord := vowel |};
              alerts := al; inflight := inf; live := lv;
              next_handle := nh; audioMode := am |})
    = {| ui := {| recording := rec; isRecording := isRec;
                  prediction := "Prediction not found in response.";
                  confidence := ""; vowelToRecord := vowel |};
         alerts := al ++ [{| title := "Error";
                             message :=
                               "Prediction not found in backend response." |}];
         inflight := inf; live := lv; next_handle := nh;
         audioMode := am |}).
  { destruct data as [[[l|] c]|]; cbn in Hdata;
      unfold uploadAudio_settled;
      try (destruct (JS.truthy_string l); [discriminate|]);
      reflexivity. }
  rewrite Hmal. clear Hmal. unfold_handlers. cbn.
  split; [| repeat split; auto using digits_inj].
  do 3 eexists.
  repeat (split; [reflexivity|]).
  repeat split; intros [=].
Qed.

(** *** What a transition changes *)

Lemma press_frame (w : world) (env : audio_env) :
  let w' := step' w (Press env) in
  vowelToRecord (ui w') = vowelToRecord (ui w)
  /\ (confidence (ui w') = confidence (ui w) \/ confidence (ui w') = "").
Proof.
  destruct w as [[rec isRec pred conf vowel] al inf lv nh am].
  destruct isRec, rec as [h|]; case_outcomes env;
    (split; [reflexivity | first [left; reflexivity | right; reflexivity]]).
Qed.

Lemma settle_writes (w : world) (i : nat) (r : settlement) :
  let w' := step' w (Settle i r) in
  w' = w
  \/ ((exists a, alerts w' = (alerts w ++ [a])%list)
      /\ (confidence (ui w') = ""
          \/ exists b c,
               r = fulfilled (Some b)
               /\ body_confidence b = Some c
               /\ confidence (ui w')
                  = format_confidence Number_toString c)).
Proof.
  destruct w as [[rec isRec pred conf vowel] al inf lv nh am].
  unfold step. cbn [inflight]. destruct (nth_error inf i); [right | left].
  - destruct r as [[[[l|] [c|]]|]|[s j| |m]]; unfold forget_request;
      unfold uploadAudio_settled;
      try destruct (JS.truthy_string l);
      try destruct (JS.truthy_number c);
      unfold_handlers; cbn;
      (split; [eexists; reflexivity |]);
      first [ left; reflexivity
            | right; do 2 eexists; repeat split; reflexivity ].
  - reflexivity.
Qed.

(** C8, amended. No transition changes vowelToRecord.  A settlement of a
    request (the Success and Failed transitions) changes nothing but the
    status string and the confidence string and raises one alert: the
    recording held, the isRecording flag, the live recordings and the audio
    mode stay as they are.  A press may in addition change the isRecording
    flag, the recording held and the audio mode; the confidence string it
    can only clear.  A confidence string that is not empty is written only
    when a request is fulfilled with a body that holds a confidence. *)
Theorem C8_what_each_transition_changes :
  forall (w : world) (e : event),
    let w' := step' w e in
    vowelToRecord (ui w') = vowelToRecord (ui w)
    /\ match e with
       | Press env =>
           confidence (ui w') = confidence (ui w)
           \/ confidence (ui w') = ""
       | Settle i r =>
           (recording (ui w') = recording (ui w)
            /\ isRecording (ui w') = isRecording (ui w)
            /\ live w' = live w
            /\ next_handle w' = next_handle w
            /\ audioMode w' = audioMode w)
           /\ (w' = w
               \/ ((exists a, alerts w' = (alerts w ++ [a])%list)
                   /\ (confidence (ui w') = ""
                       \/ exists b c,
                            r = fulfilled (Some b)
                            /\ body_confidence b = Some c
                            /\ confidence (ui w')
                               = format_confidence Number_toString c)))
       end.
Proof.
  intros w [env | i r] w'; subst w'.
  - apply press_frame.
  - destruct (settle_frame w i r) as (Hrec & Hflag & Hvowel & Hlive & Hnext
                                      & Hmode).
    split; [exact Hvowel | split].
    + exact (conj Hrec (conj Hflag (conj Hlive (conj Hnext Hmode)))).
    + apply settle_writes.
Qed.

(* ------------------------------------------------------------------ *)
(** *** Further properties of the handlers *)

(** As [case_outcomes], keeping what the test [if (audioUri)] found. *)
Ltac case_outcomes_eq env :=
  destruct env as [o_stop o_mode_stop u o_mode_start o_create];
  unfold_handlers;
  split_outcomes o_stop o_mode_stop u o_mode_start o_create;
  try (destruct (JS.truthy_string u) eqn:Hu; unfold_handlers).

Lemma run_invariant (P : world -> Prop) :
  (forall w e, P w -> P (step' w e)) ->
  forall events w, P w -> P (run' w events).
Proof.
  intros Hstep events. induction events as [|e events IH]; intros w H; cbn.
  - exact H.
  - apply IH, Hstep, H.
Qed.

(** **** The flag and the recording held *)



(** **** The requests in flight *)

Lemma Forall_remove_nth {A : Type} (P : A -> Prop) (l : list A) :
  Forall P l -> forall i, Forall P (remove_nth i l).
Proof.
  induction 1 as [|a l Ha Hl IH]; intros i.
  - destruct i; constructor.
  - destruct i; cbn; [exact Hl | constructor; [exact Ha | apply IH]].
Qed.

Lemma press_inflight (w : world) (env : audio_env) :
  inflight (step' w (Press env)) = inflight w
  \/ exists u, JS.truthy_string u = true
               /\ inflight (step' w (Press env))
                  = (inflight w ++ [upload_request u])%list.
Proof.
  destruct w as [[rec isRec pred conf vowel] al inf lv nh am].
  destruct isRec, rec as [h|]; case_outcomes_eq env;
    first [ left; reflexivity
          | right; eexists; split; [exact Hu | reflexivity] ].
Qed.

Lemma settle_inflight (w : world) (i : nat) (r : settlement) :
  inflight (step' w (Settle i r)) = remove_nth i (inflight w).
Proof.
  destruct w as [[rec isRec pred conf vowel] al inf lv nh am].
  unfold step. cbn [inflight]. destruct (nth_error inf i) eqn:Hi.
  - case_settlement r; reflexivity.
  - clear -Hi. revert i Hi. induction inf as [|a inf IH]; intros [|i] Hi;
      cbn in *; try reflexivity; try discriminate.
    f_equal. apply IH, Hi.
Qed.

(** X5. Along every execution, every request in flight is one that
    uploadAudio built: a POST to the backend URL with the multipart header
    and the single field audio_file, of type audio/m4a and name
    recording.m4a, whose URI is a non-empty string.  A settlement removes
    exactly the settled request and leaves the others in their order. *)
Theorem X5_requests_in_flight_are_well_formed :
  forall (status : permission_status) (events : list event),
    let w := run' (mount status) events in
    Forall well_formed_request (inflight w)
    /\ (forall i r, inflight (step' w (Settle i r))
                    = remove_nth i (inflight w)).
Proof.
  intros status events w. split; [| intros i r; apply settle_inflight].
  apply (run_invariant (fun w => Forall well_formed_request (inflight w))).
  - intros w0 [env | i r] H.
    + destruct (press_inflight w0 env) as [-> | (u & Hu & ->)].
      * exact H.
      * apply Forall_app. split; [exact H |].
        constructor; [exists u; split; [exact Hu | reflexivity] | constructor].
    + rewrite settle_inflight. apply Forall_remove_nth, H.
  - constructor.
Qed.

(** **** What the status block can show *)

Lemma status_stays_non_empty (w : world) (e : event) :
  JS.truthy_string (prediction (ui w)) = true ->
  JS.truthy_string (prediction (ui (step' w e))) = true.
Proof.
  destruct w as [[rec isRec pred conf vowel] al inf lv nh am].
  cbn. intros Hpred. destruct e as [env | i r].
  - destruct isRec, rec as [h|]; case_outcomes env;
      first [ exact Hpred | reflexivity ].
  - unfold step. cbn [inflight]. destruct (nth_error inf i);
      [| exact Hpred].
    destruct r as [[[[l|] c]|]|[s j| |m]]; unfold_handlers; cbn;
      try (destruct (JS.truthy_string l) eqn:Hl; cbn);
      first [ exact Hl | reflexivity ].
Qed.

(** X6. Along every execution the status string is never empty: the render
    always has a status to show.  (A label is only taken from a response
    when it is a non-empty string; every other value written is a fixed
    message.) *)
Theorem X6_status_is_never_blank :
  forall (status : permission_status) (events : list event),
    let w := run' (mount status) events in
    prediction (ui w) <> ""
    /\ status_text (render (ui w)) <> "".
Proof.
  intros status events w.
  assert (H : JS.truthy_string (prediction (ui w)) = true).
  { apply (run_invariant
             (fun w => JS.truthy_string (prediction (ui w)) = true)).
    - apply status_stays_non_empty.
    - reflexivity. }
  assert (Hne : prediction (ui w) <> "").
  { intros Heq. rewrite Heq in H. discriminate H. }
  split; exact Hne.
Qed.

Lemma format_confidence_non_empty (c : float) :
  JS.truthy_string (format_confidence Number_toString c) = true.
Proof.
  unfold format_confidence.
  destruct (JS.toFixed Number_toString (c * 100) 2); reflexivity.
Qed.

Lemma confidence_shape_step (w : world) (e : event) :
  (confidence (ui w) = ""
   \/ exists c, JS.truthy_number c = true
                /\ confidence (ui w) = format_confidence Number_toString c) ->
  confidence (ui (step' w e)) = ""
  \/ exists c, JS.truthy_number c = true
               /\ confidence (ui (step' w e))
                  = format_confidence Number_toString c.
Proof.
  destruct w as [[rec isRec pred conf vowel] al inf lv nh am].
  cbn. intros Hconf. destruct e as [env | i r].
  - destruct isRec, rec as [h|]; case_outcomes env;
      first [ exact Hconf | left; reflexivity ].
  - unfold step. cbn [inflight]. destruct (nth_error inf i);
      [| exact Hconf].
    destruct r as [[[[l|] [c|]]|]|[s j| |m]]; unfold forget_request;
      unfold uploadAudio_settled;
      try destruct (JS.truthy_string l);
      try destruct (JS.truthy_number c) eqn:Hc;
      unfold_handlers; cbn;
      first [ left; reflexivity
            | right; exists c; split; [exact Hc | reflexivity] ].
Qed.

(** X7. Along every execution the confidence string is either empty, and
    then no confidence line is rendered, or it is the two-decimal percentage
    of a truthy confidence received from the server, and then the line
    rendered is Confidence: followed by that percentage.  No other text ever
    reaches the confidence line. *)
Theorem X7_confidence_line_is_empty_or_a_percentage :
  forall (status : permission_status) (events : list event),
    let w := run' (mount status) events in
    (confidence (ui w) = "" /\ confidence_text (render (ui w)) = None)
    \/ exists c,
         JS.truthy_number c = true
         /\ confidence (ui w) = format_confidence Number_toString c
         /\ confidence_text (render (ui w))
            = Some ("Confidence: " ++ format_confidence Number_toString c).
Proof.
  intros status events w.
  assert (H : confidence (ui w) = ""
              \/ exists c, JS.truthy_number c = true
                           /\ confidence (ui w)
                              = format_confidence Number_toString c).
  { apply (run_invariant
             (fun w => confidence (ui w) = ""
                       \/ exists c, JS.truthy_number c = true
                                    /\ confidence (ui w)
                                       = format_confidence Number_toString c)).
    - apply confidence_shape_step.
    - left. reflexivity. }
  unfold render. cbn [confidence_text].
  destruct H as [-> | (c & Hc & ->)].
  - left. split; reflexivity.
  - right. exists c. rewrite format_confidence_non_empty.
    repeat split. exact Hc.
Qed.

(** X8. What a settled request shows depends on the response alone: the
    status string, the confidence string and the alert raised are the same
    whatever the screen was showing when the response arrived (a recording
    in progress included), and the alert is added after those already
    raised. *)
Theorem X8_settlement_shows_the_response_only :
  forall (w1 w2 : world) (r : settlement),
    let a := snd (settled' r w1) in
    let b := snd (settled' r w2) in
    prediction (ui a) = prediction (ui b)
    /\ confidence (ui a) = confidence (ui b)
    /\ exists raised,
         alerts a = (alerts w1 ++ [raised])%list
         /\ alerts b = (alerts w2 ++ [raised])%list.
Proof.
  intros w1 w2 r.
  destruct w1 as [[rec1 isRec1 pred1 conf1 vowel1] al1 inf1 lv1 nh1 am1].
  destruct w2 as [[rec2 isRec2 pred2 conf2 vowel2] al2 inf2 lv2 nh2 am2].
  case_settlement r;
    (split; [reflexivity | split; [reflexivity |]]);
    eexists; split; reflexivity.
Qed.

(** X10. Every event raises at most one alert and removes none: the alerts
    after an event are those before it, followed by at most one more. *)
Theorem X10_alerts_are_append_only :
  forall (w : world) (e : event),
    exists raised,
      alerts (step' w e) = (alerts w ++ raised)%list
      /\ List.length raised <= 1.
Proof.
  intros w e.
  destruct w as [[rec isRec pred conf vowel] al inf lv nh am].
  destruct e as [env | i r].
  - destruct isRec, rec as [h|]; case_outcomes env;
      first [ exists []; split; [rewrite app_nil_r; reflexivity | cbn; lia]
            | eexists [_]; split; [reflexivity | cbn; lia] ].
  - unfold step. cbn [inflight]. destruct (nth_error inf i).
    + case_settlement r; eexists [_]; split; first [reflexivity | cbn; lia].
    + exists []. split; [rewrite app_nil_r; reflexivity | cbn; lia].
Qed.

(** **** The stop path of the button *)

(** X1. When the button is pressed with the flag up and stopRecording
    rejects (the unloading, or the change of audio mode after it), nothing
    catches the rejection: the handler rejects with the library's message.
    The flag has been lowered, so the button reads Start Recording again,
    but no alert is raised, the status and confidence strings stay as they
    were, and no upload is attempted. *)
Theorem X1_failed_stop_is_silent :
  forall (w : world) (env : audio_env) (h : handle) (msg : string),
    isRecording (ui w) = true ->
    recording (ui w) = Some h ->
    stop_failure env = Some msg ->
    let w' := step' w (Press env) in
    fst (handleRecordButtonPress os env w) = Thrown msg
    /\ isRecording (ui w') = false
    /\ button_title (render (ui w')) = "Start Recording"
    /\ prediction (ui w') = prediction (ui w)
    /\ confidence (ui w') = confidence (ui w)
    /\ recording (ui w') = Some h
    /\ alerts w' = alerts w
    /\ inflight w' = inflight w.
Proof.
  destruct w as [[rec isRec pred conf vowel] al inf lv nh am].
  intros env h msg. cbn. intros -> ->. unfold stop_failure.
  destruct env as [o_stop o_mode_stop u o_mode_start o_create]. cbn.
  destruct o_stop as [|m1]; [destruct o_mode_stop as [|m2] |];
    intros [= <-]; unfold_handlers; cbn; repeat split.
Qed.

(** X2. When the button is pressed with the flag up, stopRecording succeeds
    and getURI returns null or the empty string, no upload is attempted and
    no alert is raised: the screen is left with status Processing... and the
    flag down, with nothing in flight that would ever change that status. *)
Theorem X2_no_upload_without_uri :
  forall (w : world) (env : audio_env) (h : handle),
    isRecording (ui w) = true ->
    recording (ui w) = Some h ->
    stop_failure env = None ->
    JS.truthy_opt JS.truthy_string (getURI_result env) = false ->
    let w' := step' w (Press env) in
    fst (handleRecordButtonPress os env w) = Returned tt
    /\ isRecording (ui w') = false
    /\ prediction (ui w') = "Processing..."
    /\ confidence (ui w') = ""
    /\ inflight w' = inflight w
    /\ alerts w' = alerts w
    /\ live w' = List.remove Nat.eq_dec h (live w)
    /\ audioMode w' = Some playback_mode.
Proof.
  destruct w as [[rec isRec pred conf vowel] al inf lv nh am].
  intros env h. cbn. intros -> ->. unfold stop_failure.
  destruct env as [o_stop o_mode_stop u o_mode_start o_create]. cbn.
  destruct o_stop as [|m1]; [destruct o_mode_stop as [|m2] |];
    intros [=]. intros Hu.
  destruct u as [u|]; cbn in Hu; unfold_handlers; cbn;
    try rewrite Hu; cbn; repeat split.
Qed.

(** X3. When the button is pressed with the flag up, stopRecording succeeds
    and getURI returns a non-empty URI, exactly one request for that URI is
    put in flight behind those already there, the status reads Sending to
    backend..., the confidence is cleared, the recording is unloaded and the
    audio mode is switched back to playback; no alert is raised. *)
Theorem X3_stop_sends_one_request :
  forall (w : world) (env : audio_env) (h : handle) (u : string),
    isRecording (ui w) = true ->
    recording (ui w) = Some h ->
    stop_failure env = None ->
    getURI_result env = Some u ->
    JS.truthy_string u = true ->
    let w' := step' w (Press env) in
    inflight w' = (inflight w ++ [upload_request u])%list
    /\ isRecording (ui w') = false
    /\ prediction (ui w') = "Sending to backend..."
    /\ confidence (ui w') = ""
    /\ alerts w' = alerts w
    /\ live w' = List.remove Nat.eq_dec h (live w)
    /\ audioMode w' = Some playback_mode.
Proof.
  destruct w as [[rec isRec pred conf vowel] al inf lv nh am].
  intros env h u. cbn. intros -> ->. unfold stop_failure.
  destruct env as [o_stop o_mode_stop u' o_mode_start o_create]. cbn.
  destruct o_stop as [|m1]; [destruct o_mode_stop as [|m2] |];
    intros [=]. intros -> Hu.
  unfold_handlers. cbn. rewrite Hu. cbn. repeat split.
Qed.

(** **** The start path of the button *)

(** X9. A press with the flag down never rejects: every failure of
    startRecording ends in its catch block.  When no audio call of the press
    rejects, the press ends with the flag up, the new recording held, status
    Recording..., the confidence cleared, the recording mode of the platform
    applied and no alert.  When one rejects, the press ends with the flag
    down, status Error and one Recording Error alert that quotes the message
    of the first call that rejected; no recording has been prepared, the one
    held is still held, and the confidence string is cleared only if the
    guard had already stopped the held recording, otherwise it stays on
    screen next to the status Error. *)
Theorem X9_start_either_records_or_reports :
  forall (w : world) (env : audio_env),
    isRecording (ui w) = false ->
    let w' := step' w (Press env) in
    fst (handleRecordButtonPress os env w) = Returned tt
    /\ inflight w' = inflight w
    /\ match start_rejection env (recording (ui w)) with
       | None =>
           isRecording (ui w') = true
           /\ recording (ui w') = Some (next_handle w)
           /\ prediction (ui w') = "Recording..."
           /\ confidence (ui w') = ""
           /\ audioMode w' = Some (audioModeConfig os)
           /\ alerts w' = alerts w
       | Some msg =>
           isRecording (ui w') = false
           /\ recording (ui w') = recording (ui w)
           /\ prediction (ui w') = "Error"
           /\ alerts w' = (alerts w ++ [recording_error_alert msg])%list
           /\ next_handle w' = next_handle w
           /\ confidence (ui w')
              = match recording (ui w), stop_failure env with
                | Some _, None => ""
                | _, _ => confidence (ui w)
                end
       end.
Proof.
  destruct w as [[rec isRec pred conf vowel] al inf lv nh am].
  intros env. cbn. intros ->.
  unfold start_rejection, stop_failure, first_start_failure.
  destruct env as [o_stop o_mode_stop u o_mode_start o_create]. cbn.
  destruct rec as [h|], o_stop, o_mode_stop, o_mode_start, o_create;
    unfold_handlers; cbn; repeat split.
Qed.

(** **** A first cycle *)

(** X11. From the mounted screen, a recording that is started, stopped with
    a non-empty URI and whose request then settles, in whatever way, leaves
    the machine idle with nothing in flight and no recording live, exactly
    one alert raised, and the status and confidence of that settlement on
    screen. *)
Theorem X11_first_cycle_ends_idle_with_the_result :
  forall (u : string) (r : settlement),
    JS.truthy_string u = true ->
    let w := run' (mount granted) (record_and_send u ++ [Settle 0 r]) in
    idle w /\ inflight w = [] /\ live w = []
    /\ List.length (alerts w) = 1
    /\ prediction (ui w) = prediction (ui (snd (settled' r (mount granted))))
    /\ confidence (ui w) = confidence (ui (snd (settled' r (mount granted)))).
Proof.
  intros u r Hu w. subst w. unfold record_and_send, run, audio_ok.
  cbn [fold_left app]. unfold idle.
  unfold_handlers. cbn. rewrite Hu. cbn.
  case_settlement r; repeat split.
Qed.

(** **** The percentage written on success *)

Lemma string_length_app (s1 s2 : string) :
  String.length (s1 ++ s2) = String.length s1 + String.length s2.
Proof. induction s1 as [|a s1 IH]; cbn; [reflexivity | rewrite IH; reflexivity]. Qed.

Lemma append_assoc_string (s1 s2 s3 : string) :
  (s1 ++ s2) ++ s3 = s1 ++ (s2 ++ s3).
Proof. induction s1 as [|a s1 IH]; cbn; [reflexivity | rewrite IH; reflexivity]. Qed.

Lemma zeros_length (k : nat) : String.length (JS.zeros k) = k.
Proof. induction k as [|k IH]; cbn; [reflexivity | rewrite IH; reflexivity]. Qed.

Lemma substring_split (s : string) :
  forall n m, n + m = String.length s ->
    substring 0 n s ++ substring n m s = s
    /\ String.length (substring n m s) = m
    /\ String.length (substring 0 n s) = n.
Proof.
  induction s as [|a s IH]; intros n m Hlen; cbn in Hlen.
  - assert (n = 0) by lia. assert (m = 0) by lia. subst. cbn. auto.
  - destruct n as [|n].
    + cbn in Hlen. subst m. cbn.
      destruct (IH 0 (String.length s) eq_refl) as (H1 & H2 & H3).
      assert (H0 : substring 0 0 s = "") by (destruct s; reflexivity).
      rewrite H0 in H1. cbn in H1. rewrite H1. auto.
    + destruct (IH n m ltac:(lia)) as (H1 & H2 & H3).
      cbn [substring]. cbn [append]. rewrite H1.
      change (String.length (String a (substring 0 n s))) with
        (S (String.length (substring 0 n s))).
      rewrite H3. auto.
Qed.

Lemma padded_digits_length (n : Z) (f : nat) :
  f + 1 <= String.length (padded_digits n f).
Proof.
  unfold padded_digits.
  destruct (Nat.leb_spec
              (String.length
                 (if (n =? 0)%Z then "0" else JS.digits (Z.to_N n))) f).
  - rewrite string_length_app, zeros_length. lia.
  - lia.
Qed.

(** Where [toFixed] places the point: in front of the last [f] of the padded
    digits. *)
Lemma place_point_shape (n : Z) (f : nat) :
  exists a b,
    JS.place_point n (S f) = a ++ "." ++ b
    /\ a ++ b = padded_digits n (S f)
    /\ String.length b = S f
    /\ 1 <= String.length a.
Proof.
  pose proof (padded_digits_length n (S f)) as Hlen.
  set (k := String.length (padded_digits n (S f))) in *.
  destruct (substring_split (padded_digits n (S f)) (k - S f) (S f)
              ltac:(lia)) as (Happ & Hb & Ha).
  exists (substring 0 (k - S f) (padded_digits n (S f))),
         (substring (k - S f) (S f) (padded_digits n (S f))).
  split; [reflexivity | split; [exact Happ | split; [exact Hb |]]].
  rewrite Ha. lia.
Qed.

(** X12. The integer that toFixed prints for the number m * 2^e with f
    decimals is the nearest one to m * 2^e * 10^f, the larger one on a tie:
    for a negative exponent it lies within half a unit of the exact value,
    the upper half included and the lower not; for a non-negative exponent
    it is the exact value. *)
Theorem X12_toFixed_rounds_to_nearest_ties_up :
  forall (m : positive) (e : Z) (f : nat),
    let n := JS.nearest_scaled m e f in
    let exact_num := (Z.pos m * 10 ^ Z.of_nat f)%Z in
    if (0 <=? e)%Z
    then n = (exact_num * 2 ^ e)%Z
    else (2 * exact_num - 2 ^ (- e) < 2 * 2 ^ (- e) * n
          /\ 2 * 2 ^ (- e) * n <= 2 * exact_num + 2 ^ (- e))%Z.
Proof.
  intros m e f. unfold JS.nearest_scaled. cbv zeta.
  destruct (Z.leb_spec 0 e) as [He | He]; [reflexivity |].
  set (num := (Z.pos m * 10 ^ Z.of_nat f)%Z).
  set (d := (2 ^ (- e))%Z).
  assert (Hd : (0 < d)%Z) by (apply Z.pow_pos_nonneg; lia).
  replace (2 ^ (1 - e))%Z with (2 * d)%Z.
  2:{ unfold d. replace (1 - e)%Z with (Z.succ (- e)) by lia.
      rewrite Z.pow_succ_r by lia. reflexivity. }
  pose proof (Z.mul_div_le (2 * num + d) (2 * d) ltac:(lia)) as Hle.
  pose proof (Z.mul_succ_div_gt (2 * num + d) (2 * d) ltac:(lia)) as Hgt.
  split; lia.
Qed.

(** X13. For a confidence whose hundredfold is finite and below 10^21 in
    magnitude, the text written on success is: a minus sign when the number
    is negative, at least one digit, a point, exactly two characters, and
    the percent sign; with the point taken out, the digits are those of the
    integer nearest to that number times 10^2, padded with zeros to three. *)
Theorem X13_confidence_has_two_decimals :
  forall (c : float),
    finite_number (PrimFloat.mul c 100) = true ->
    PrimFloat.leb 1e21 (PrimFloat.abs (PrimFloat.mul c 100)) = false ->
    exists a b,
      format_confidence Number_toString c
      = sign_of (PrimFloat.mul c 100) ++ a ++ "." ++ b ++ "%"
      /\ String.length b = 2
      /\ 1 <= String.length a
      /\ a ++ b
         = padded_digits
             match Prim2SF (PrimFloat.mul c 100) with
             | S754_finite _ m e => JS.nearest_scaled m e 2
             | _ => 0%Z
             end 2.
Proof.
  intros c Hfin Hbig.
  unfold format_confidence, JS.toFixed, sign_of, finite_number in *.
  rewrite Hbig.
  destruct (Prim2SF (c * 100)) as [sg | sg | | sg m e]; try discriminate.
  - destruct (place_point_shape 0 1) as (a & b & Hp & Hab & Hb & Ha).
    exists a, b. rewrite Hp.
    split; [rewrite !append_assoc_string; reflexivity | auto].
  - destruct (place_point_shape (JS.nearest_scaled m e 2) 1)
      as (a & b & Hp & Hab & Hb & Ha).
    exists a, b. rewrite Hp.
    split; [rewrite !append_assoc_string; reflexivity | auto].
Qed.

End Properties.

(* ================================================================== *)
(** ** Concrete runs *)

(** [toFixed] on a few numbers, as a JavaScript engine prints them. *)
Example toFixed_examples :
  JS.toFixed Number_toString_unreached (0.87 * 100)%float 2 = "87.00"
  /\ JS.toFixed Number_toString_unreached 1.005%float 2 = "1.00"
  /\ JS.toFixed Number_toString_unreached 0.005%float 2 = "0.01"
  /\ JS.toFixed Number_toString_unreached 123.456%float 2 = "123.46"
  /\ JS.toFixed Number_toString_unreached (-0.001)%float 2 = "-0.00"
  /\ JS.toFixed Number_toString_unreached 2.5%float 0 = "3"
  /\ JS.toFixed Number_toString_unreached (0.57 * 100)%float 2 = "57.00".
Proof. vm_compute. repeat split. Qed.


(** The same press where the library resolves the second unloading: a second
    recording starts while the first request is in flight, and one more
    press puts a second request in flight next to it. *)
Example press_during_upload_when_unload_resolves :
  let w := run android Number_toString_unreached (mount granted)
             (record_and_send "file:///recording-1.m4a") in
  let w1 := step android Number_toString_unreached w
              (Press (audio_ok None)) in
  let w2 := step android Number_toString_unreached w1
              (Press (audio_ok (Some "file:///recording-2.m4a"))) in
  (is_recording w1 = true /\ live w1 = [1]
   /\ prediction (ui w1) = "Recording...")
  /\ uploads_in_flight w2 = 2.
Proof. vm_compute. repeat split. Qed.


(** C6, counterexample. A body with a label and no confidence leaves the
    confidence string empty; it is not the string unknown. *)
Lemma C6_absent_confidence_is_not_unknown :
  let w' := snd (uploadAudio_settled Number_toString_unreached
                   (fulfilled (Some {| body_prediction := Some "hypernasal";
                                       body_confidence := None |}))
                   (mount granted)) in
  prediction (ui w') = "hypernasal"
  /\ confidence (ui w') = ""
  /\ confidence (ui w') <> "unknown".
Proof. vm_compute. repeat split. intros [=]. Qed.

(** C8, counterexample. The press that starts the first recording changes
    the status string and, with it, the isRecording flag, the recording
    held, the title and the colour of the button, and the audio mode. *)
Lemma C8_start_changes_more_than_status :
  let w := mount granted in
  let w' := step android Number_toString_unreached w
              (Press (audio_ok None)) in
  prediction (ui w') <> prediction (ui w)
  /\ isRecording (ui w') <> isRecording (ui w)
  /\ recording (ui w') <> recording (ui w)
  /\ button_title (render (ui w')) <> button_title (render (ui w))
  /\ button_color (render (ui w')) <> button_color (render (ui w))
  /\ audioMode w' <> audioMode w.
Proof. vm_compute. repeat split; intros [=]. Qed.


(** C5 at the label normal, on the screen as mounted. *)
Lemma C5_label_without_confidence_witness :
  "normal" <> ""
  /\ prediction
       (ui (snd (uploadAudio_settled Number_toString_unreached
                   (fulfilled (Some {| body_prediction := Some "normal";
                                       body_confidence := None |}))
                   (mount granted))))
     = "normal".
Proof.
  split; [discriminate |].
  exact (proj1 (C5_label_without_confidence_is_success
                  Number_toString_unreached (mount granted) "normal"
                  ltac:(discriminate))).
Defined.

(** C7 at status 500 and a 2xx response with no body. *)
Lemma C7_failure_categories_witness :
  no_label None = true
  /\ prediction
       (ui (snd (uploadAudio_settled Number_toString_unreached
                   (rejected (error_response 500 "{}")) (mount granted))))
     = "Error sending to backend.".
Proof.
  split; [reflexivity |].
  exact (proj1 (proj2 (proj2
           (C7_failure_categories_are_distinguishable
              Number_toString_unreached (mount granted) 500 "{}" None
              eq_refl)))).
Defined.

(** C10 at the label normal and the confidence 0. *)
Lemma C10_zero_confidence_witness :
  "normal" <> "" /\ PrimFloat.is_zero 0%float = true
  /\ confidence
       (ui (snd (uploadAudio_settled Number_toString_unreached
                   (fulfilled (Some {| body_prediction := Some "normal";
                                       body_confidence := Some 0%float |}))
                   (mount granted))))
     = "".
Proof.
  split; [discriminate | split; [reflexivity |]].
  exact (proj1 (proj2 (proj2
           (C10_zero_confidence_shows_no_confidence
              Number_toString_unreached (mount granted) "normal" 0%float
              ltac:(discriminate) eq_refl)))).
Defined.

(** X1 on a recording in progress, when the unloading is rejected. *)
Lemma X1_failed_stop_witness :
  let w := run android Number_toString_unreached (mount granted)
             [Press (audio_ok None)] in
  isRecording (ui w) = true
  /\ recording (ui w) = Some 0
  /\ stop_failure audio_stop_fails = Some "Recorder does not exist."
  /\ fst (handleRecordButtonPress android audio_stop_fails w)
     = Thrown "Recorder does not exist.".
Proof.
  cbv zeta. split; [reflexivity | split; [reflexivity | split;
    [reflexivity |]]].
  exact (proj1 (X1_failed_stop_is_silent android Number_toString_unreached
                  (run android Number_toString_unreached (mount granted)
                     [Press (audio_ok None)])
                  audio_stop_fails 0 "Recorder does not exist."
                  eq_refl eq_refl eq_refl)).
Defined.

(** X2 on a recording in progress, when getURI returns null. *)
Lemma X2_no_upload_witness :
  let w := run android Number_toString_unreached (mount granted)
             [Press (audio_ok None)] in
  isRecording (ui w) = true
  /\ recording (ui w) = Some 0
  /\ stop_failure (audio_ok None) = None
  /\ JS.truthy_opt JS.truthy_string (getURI_result (audio_ok None)) = false
  /\ fst (handleRecordButtonPress android (audio_ok None) w) = Returned tt.
Proof.
  cbv zeta. split; [reflexivity | split; [reflexivity | split;
    [reflexivity | split; [reflexivity |]]]].
  exact (proj1 (X2_no_upload_without_uri android Number_toString_unreached
                  (run android Number_toString_unreached (mount granted)
                     [Press (audio_ok None)])
                  (audio_ok None) 0 eq_refl eq_refl eq_refl eq_refl)).
Defined.

(** X3 on a recording in progress, stopped with a URI. *)
Lemma X3_stop_sends_witness :
  let w := run android Number_toString_unreached (mount granted)
             [Press (audio_ok None)] in
  let env := audio_ok (Some "file:///recording-1.m4a") in
  isRecording (ui w) = true
  /\ recording (ui w) = Some 0
  /\ stop_failure env = None
  /\ getURI_result env = Some "file:///recording-1.m4a"
  /\ JS.truthy_string "file:///recording-1.m4a" = true
  /\ inflight (step android Number_toString_unreached w (Press env))
     = (inflight w ++ [upload_request "file:///recording-1.m4a"])%list.
Proof.
  cbv zeta. split; [reflexivity | split; [reflexivity | split;
    [reflexivity | split; [reflexivity | split; [reflexivity |]]]]].
  exact (proj1 (X3_stop_sends_one_request android Number_toString_unreached
                  (run android Number_toString_unreached (mount granted)
                     [Press (audio_ok None)])
                  (audio_ok (Some "file:///recording-1.m4a")) 0
                  "file:///recording-1.m4a"
                  eq_refl eq_refl eq_refl eq_refl eq_refl)).
Defined.


(** X9 on the mounted screen. *)
Lemma X9_start_witness :
  isRecording (ui (mount granted)) = false
  /\ fst (handleRecordButtonPress android (audio_ok None) (mount granted))
     = Returned tt.
Proof.
  split; [reflexivity |].
  exact (proj1 (X9_start_either_records_or_reports android
                  Number_toString_unreached (mount granted)
                  (audio_ok None) eq_refl)).
Defined.

(** X11 for the response of the running example. *)
Lemma X11_first_cycle_witness :
  JS.truthy_string "file:///recording-1.m4a" = true
  /\ idle (run android Number_toString_unreached (mount granted)
             (record_and_send "file:///recording-1.m4a"
              ++ [Settle 0 hypernasal_087])).
Proof.
  split; [reflexivity |].
  exact (proj1 (X11_first_cycle_ends_idle_with_the_result android
                  Number_toString_unreached "file:///recording-1.m4a"
                  hypernasal_087 eq_refl)).
Defined.

(** X13 at the confidence 0.87. *)
Lemma X13_two_decimals_witness :
  finite_number (PrimFloat.mul 0.87 100) = true
  /\ PrimFloat.leb 1e21 (PrimFloat.abs (PrimFloat.mul 0.87 100)) = false
  /\ exists a b,
       format_confidence Number_toString_unreached 0.87
       = sign_of (PrimFloat.mul 0.87 100) ++ a ++ "." ++ b ++ "%"
       /\ String.length b = 2
       /\ 1 <= String.length a
       /\ a ++ b
          = padded_digits
              match Prim2SF (PrimFloat.mul 0.87 100) with
              | S754_finite _ m e => JS.nearest_scaled m e 2
              | _ => 0%Z
              end 2.
Proof.
  split; [reflexivity | split; [reflexivity |]].
  exact (X13_confidence_has_two_decimals Number_toString_unreached 0.87
           eq_refl eq_refl).
Defined.
